(** * wp-block-template: the attribute schema and its two renderings

    A shallow embedding of the block's editor component ([edit.tsx]) and of
    its server-side template ([render.php]), with the properties the
    specification states about them.

    Numbers are rationals: the schema's [number] fields are only compared
    with the bounds of the range controls and printed in front of [rem].
    How a number is printed belongs to the language runtime (JavaScript's
    template literals on one side, PHP's string conversion on the other) and
    is a method of the runtime classes below, as are WordPress's escaping
    and translation functions. *)

From Stdlib Require Import QArith Ascii.
From stdpp Require Import gmap strings list pretty.

Abbreviation number := Q.

(** ** Characters the sources write inside string literals *)

Definition dq : string := String (Ascii.ascii_of_nat 34) EmptyString.
Definition nl : string := String (Ascii.ascii_of_nat 10) EmptyString.

(** ** Host runtimes *)

(** What render.php takes from PHP and WordPress. [WP_Block] is the block
    instance being rendered: the host hands it to render.php as [$block],
    beside [$attributes], and [get_block_wrapper_attributes] reads it. *)
Class PhpRuntime := {
  WP_Block : Type;
  esc_attr : string → string;
  esc_html : string → string;
  get_block_wrapper_attributes : WP_Block → string → string;
  php_number_to_string : number → string
}.

(** What edit.tsx takes from JavaScript and WordPress. *)
Class JsRuntime := {
  i18n : string → string → string;
  useBlockProps : string → string;
  js_number_to_string : number → string
}.

(** ** The markup both renderings describe *)

Module Markup.

Record ContainerStyle := {
  padding : string;
  backgroundColor : string;
  alignItems : string
}.

Record TextStyle := {
  color : string;
  fontSize : string
}.

Record Element := {
  tag : string;
  style : TextStyle;
  body : string
}.

Record Tree := {
  container : ContainerStyle;
  children : list Element
}.

Definition style_attribute (s : TextStyle) : string :=
  " style=" +:+ dq +:+ "color: " +:+ color s +:+ "; font-size: " +:+ fontSize s
    +:+ ";" +:+ dq.

Definition element_html (e : Element) : string :=
  "    <" +:+ tag e +:+ style_attribute (style e) +:+ ">" +:+ body e
    +:+ "</" +:+ tag e +:+ ">" +:+ nl.

Fixpoint elements_html (es : list Element) : string :=
  match es with
  | [] => EmptyString
  | e :: es' => element_html e +:+ elements_html es'
  end.

(** The text of a tree, laid out as render.php lays it out. *)
Definition to_html (wrapper : string) (t : Tree) : string :=
  nl +:+ "<section " +:+ wrapper +:+ " style=" +:+ dq
    +:+ "padding: " +:+ padding (container t)
    +:+ "; background-color: " +:+ backgroundColor (container t)
    +:+ "; align-items: " +:+ alignItems (container t) +:+ ";" +:+ dq +:+ ">" +:+ nl
    +:+ elements_html (children t)
    +:+ "</section>".

Definition has_tag (name : string) (t : Tree) : bool :=
  existsb (λ e, String.eqb (tag e) name) (children t).

Definition find_tag (name : string) (t : Tree) : option Element :=
  find (λ e, String.eqb (tag e) name) (children t).

End Markup.

(** ** render.php *)

Module Php.

(** The values a decoded attribute can hold: scalars, and arrays of
    scalars (the [padding] record). *)
Inductive scalar :=
| SNull
| SBool (b : bool)
| SNum (n : number)
| SStr (s : string).

Inductive value :=
| VScalar (s : scalar)
| VArray (a : gmap string scalar).

Definition VNum (n : number) : value := VScalar (SNum n).
Definition VStr (s : string) : value := VScalar (SStr s).
Definition VBool (b : bool) : value := VScalar (SBool b).

(** [$attributes['key'] ?? fallback]: the fallback is taken when the key is
    not set or holds null. *)
Definition coalesce (read : option value) (fallback : value) : value :=
  match read with
  | None | Some (VScalar SNull) => fallback
  | Some v => v
  end.

(** [$container['key']] for reading. A key that is not set reads as null,
    as does any offset of null, a boolean or a number; an offset of a
    string by a name is a TypeError (PHP 8), here [None]. *)
Definition offsetGet (container : value) (key : string) : option scalar :=
  match container with
  | VArray a => Some (default SNull (a !! key))
  | VScalar (SStr _) => None
  | VScalar _ => Some SNull
  end.

Section Template.
Context `{PhpRuntime}.

(** PHP's conversion to string, which [esc_attr] and [esc_html] apply to
    their argument first. *)
Definition strval_scalar (s : scalar) : string :=
  match s with
  | SNull => EmptyString
  | SBool true => "1"
  | SBool false => EmptyString
  | SNum n => php_number_to_string n
  | SStr s => s
  end.

Definition strval (v : value) : string :=
  match v with
  | VScalar s => strval_scalar s
  | VArray _ => "Array"
  end.

(** The variables render.php sets up in lines 15-31. *)
Record Locals := {
  title : value;
  show_title : value;
  title_color : value;
  title_size : value;
  content : value;
  content_color : value;
  content_size : value;
  background_color : value;
  padding : value;
  alignment : value
}.

Definition default_padding : value :=
  VArray {[ "top" := SNum 2; "bottom" := SNum 2; "left" := SNum 2; "right" := SNum 2 ]}.

Definition locals (attributes : gmap string value) : Locals := {|
  title := coalesce (attributes !! "title") (VStr "Block Title");
  show_title := coalesce (attributes !! "showTitle") (VBool true);
  title_color := coalesce (attributes !! "titleTextColor") (VStr "#1a202c");
  title_size := coalesce (attributes !! "titleFontSize") (VNum 3);
  content := coalesce (attributes !! "content") (VStr "Add your content here...");
  content_color := coalesce (attributes !! "contentColor") (VStr "#4a5568");
  content_size := coalesce (attributes !! "contentFontSize") (VNum 1);
  background_color := coalesce (attributes !! "backgroundColor") (VStr "#ffffff");
  padding := coalesce (attributes !! "padding") default_padding;
  alignment := coalesce (attributes !! "alignment") (VStr "center")
|}.

(** Lines 34-37, as the text they print. *)
Definition template (block : WP_Block) (l : Locals) : option string :=
  top ← offsetGet (padding l) "top";
  right ← offsetGet (padding l) "right";
  bottom ← offsetGet (padding l) "bottom";
  left ← offsetGet (padding l) "left";
  Some (nl +:+ "<section " +:+ get_block_wrapper_attributes block "test-block"
    +:+ " style=" +:+ dq +:+ "padding: " +:+ esc_attr (strval_scalar top)
    +:+ "rem " +:+ esc_attr (strval_scalar right)
    +:+ "rem " +:+ esc_attr (strval_scalar bottom)
    +:+ "rem " +:+ esc_attr (strval_scalar left)
    +:+ "rem; background-color: " +:+ esc_attr (strval (background_color l))
    +:+ "; align-items: " +:+ esc_attr (strval (alignment l)) +:+ ";" +:+ dq +:+ ">" +:+ nl
    +:+ "    <h2 style=" +:+ dq +:+ "color: " +:+ esc_attr (strval (title_color l))
    +:+ "; font-size: " +:+ esc_attr (strval (title_size l)) +:+ "rem;" +:+ dq +:+ ">"
    +:+ esc_html (strval (title l)) +:+ "</h2>" +:+ nl
    +:+ "    <p style=" +:+ dq +:+ "color: " +:+ esc_attr (strval (content_color l))
    +:+ "; font-size: " +:+ esc_attr (strval (content_size l)) +:+ "rem;" +:+ dq +:+ ">"
    +:+ esc_html (strval (content l)) +:+ "</p>" +:+ nl
    +:+ "</section>").

Definition render (block : WP_Block) (attributes : gmap string value)
    : option string :=
  template block (locals attributes).

(** The same lines, as the tree of elements they describe. *)
Definition h2 (l : Locals) : Markup.Element := {|
  Markup.tag := "h2";
  Markup.style := {|
    Markup.color := esc_attr (strval (title_color l));
    Markup.fontSize := esc_attr (strval (title_size l)) +:+ "rem" |};
  Markup.body := esc_html (strval (title l))
|}.

Definition p (l : Locals) : Markup.Element := {|
  Markup.tag := "p";
  Markup.style := {|
    Markup.color := esc_attr (strval (content_color l));
    Markup.fontSize := esc_attr (strval (content_size l)) +:+ "rem" |};
  Markup.body := esc_html (strval (content l))
|}.

Definition tree (l : Locals) : option Markup.Tree :=
  top ← offsetGet (padding l) "top";
  right ← offsetGet (padding l) "right";
  bottom ← offsetGet (padding l) "bottom";
  left ← offsetGet (padding l) "left";
  Some {|
    Markup.container := {|
      Markup.padding :=
        esc_attr (strval_scalar top) +:+ "rem " +:+ esc_attr (strval_scalar right)
          +:+ "rem " +:+ esc_attr (strval_scalar bottom)
          +:+ "rem " +:+ esc_attr (strval_scalar left) +:+ "rem";
      Markup.backgroundColor := esc_attr (strval (background_color l));
      Markup.alignItems := esc_attr (strval (alignment l)) |};
    Markup.children := [h2 l; p l]
  |}.

Definition render_tree (attributes : gmap string value) : option Markup.Tree :=
  tree (locals attributes).

End Template.

End Php.

(** ** edit.tsx *)

Module Editor.

Inductive Alignment := AlignLeft | AlignCenter | AlignRight.

(** The string an alignment is in JavaScript. *)
Definition alignment_value (a : Alignment) : string :=
  match a with
  | AlignLeft => "left"
  | AlignCenter => "center"
  | AlignRight => "right"
  end.

Record Padding := {
  top : number;
  bottom : number;
  left : number;
  right : number
}.

Record BlockAttributes := {
  title : string;
  showTitle : bool;
  titleTextColor : string;
  titleFontSize : number;
  content : string;
  contentTextColor : string;
  contentFontSize : number;
  backgroundColor : string;
  padding : Padding;
  alignment : Alignment
}.

(** A field of an object literal: left out, written with the value
    undefined, or written with a value. *)
Inductive Field (T : Type) :=
| Absent
| Undefined
| Value (v : T).

Arguments Absent {T}.
Arguments Undefined {T}.
Arguments Value {T} v.

(** A [T | undefined] written as the value of a key. *)
Definition written {T : Type} (value : option T) : Field T :=
  match value with
  | Some v => Value v
  | None => Undefined
  end.

(** [Partial<BlockAttributes>]: every field may be left out or undefined. *)
Module Partial.

Record t := {
  title : Field string;
  showTitle : Field bool;
  titleTextColor : Field string;
  titleFontSize : Field number;
  content : Field string;
  contentTextColor : Field string;
  contentFontSize : Field number;
  backgroundColor : Field string;
  padding : Field Padding;
  alignment : Field Alignment
}.

End Partial.

(** The object literals edit.tsx passes to [setAttributes]: one key, with
    the value the callback was handed. *)
Definition obj_title (value : option string) : Partial.t :=
  Partial.Build_t (written value) Absent Absent Absent Absent Absent Absent Absent
    Absent Absent.
Definition obj_showTitle (value : option bool) : Partial.t :=
  Partial.Build_t Absent (written value) Absent Absent Absent Absent Absent Absent
    Absent Absent.
Definition obj_titleTextColor (value : option string) : Partial.t :=
  Partial.Build_t Absent Absent (written value) Absent Absent Absent Absent Absent
    Absent Absent.
Definition obj_titleFontSize (value : option number) : Partial.t :=
  Partial.Build_t Absent Absent Absent (written value) Absent Absent Absent Absent
    Absent Absent.
Definition obj_content (value : option string) : Partial.t :=
  Partial.Build_t Absent Absent Absent Absent (written value) Absent Absent Absent
    Absent Absent.
Definition obj_contentTextColor (value : option string) : Partial.t :=
  Partial.Build_t Absent Absent Absent Absent Absent (written value) Absent Absent
    Absent Absent.
Definition obj_contentFontSize (value : option number) : Partial.t :=
  Partial.Build_t Absent Absent Absent Absent Absent Absent (written value) Absent
    Absent Absent.
Definition obj_backgroundColor (value : option string) : Partial.t :=
  Partial.Build_t Absent Absent Absent Absent Absent Absent Absent (written value)
    Absent Absent.
Definition obj_padding (value : option Padding) : Partial.t :=
  Partial.Build_t Absent Absent Absent Absent Absent Absent Absent Absent
    (written value) Absent.

(** An attribute after a field of an object has been stored over it. A field
    written as undefined makes the store hold undefined, which no
    [BlockAttributes] does: [None]. *)
Definition store {T : Type} (old : T) (field : Field T) : option T :=
  match field with
  | Absent => Some old
  | Undefined => None
  | Value v => Some v
  end.

(** The host's [setAttributes]: "updates individual attributes". The fields
    the object holds are stored over the attributes of the same name, the
    other attributes stay. The result is [None] when an attribute is then
    undefined: the attributes are no longer a [BlockAttributes]. *)
Definition setAttributes (attributes : BlockAttributes) (update : Partial.t)
    : option BlockAttributes :=
  new_title ← store (title attributes) (Partial.title update);
  new_showTitle ← store (showTitle attributes) (Partial.showTitle update);
  new_titleTextColor ←
    store (titleTextColor attributes) (Partial.titleTextColor update);
  new_titleFontSize ← store (titleFontSize attributes) (Partial.titleFontSize update);
  new_content ← store (content attributes) (Partial.content update);
  new_contentTextColor ←
    store (contentTextColor attributes) (Partial.contentTextColor update);
  new_contentFontSize ←
    store (contentFontSize attributes) (Partial.contentFontSize update);
  new_backgroundColor ←
    store (backgroundColor attributes) (Partial.backgroundColor update);
  new_padding ← store (padding attributes) (Partial.padding update);
  new_alignment ← store (alignment attributes) (Partial.alignment update);
  Some {|
    title := new_title;
    showTitle := new_showTitle;
    titleTextColor := new_titleTextColor;
    titleFontSize := new_titleFontSize;
    content := new_content;
    contentTextColor := new_contentTextColor;
    contentFontSize := new_contentFontSize;
    backgroundColor := new_backgroundColor;
    padding := new_padding;
    alignment := new_alignment
  |}.

(** The controls of the settings panel. A control's [onChange] is given as
    the object it passes to [setAttributes]. *)
Inductive Control :=
| ToggleControl (label : string) (checked : bool) (onChange : bool → Partial.t)
| RangeControl (label : string) (value : number)
    (onChange : option number → Partial.t) (min max : number)
| SelectControl (label : string) (value : string)
    (options : list (string * string)) (onChange : string → Partial.t).

(** An entry of [PanelColorSettings]'s [colorSettings]. *)
Inductive ColorSetting :=
| colorSetting (label : string) (value : string) (onChange : option string → Partial.t).

Record RichText := {
  tagName : string;
  className : string;
  value : string;
  onChange : string → Partial.t;
  style : Markup.TextStyle
}.

Record Rendered := {
  panelBody : list Control;
  colorSettings : list ColorSetting;
  blockProps : string;
  sectionStyle : Markup.ContainerStyle;
  sectionChildren : list RichText
}.

Definition blockClassName : string := "test-block".

Section Edit.
Context `{JsRuntime}.

(** [x ?? 0] *)
Definition or_zero (value : option number) : number := default 0%Q value.

Definition Edit (attributes : BlockAttributes) : Rendered :=
  let padding := padding attributes in {|
  panelBody :=
    [ToggleControl (i18n "Show Title" "my-plugin") (showTitle attributes)
       (λ value, obj_showTitle (Some value))]
    ++ (if showTitle attributes
        then [RangeControl (i18n "Title Font Size (rem)" "my-plugin")
                (titleFontSize attributes)
                (λ value, obj_titleFontSize value) 0.1%Q 5%Q]
        else [])
    ++ [RangeControl (i18n "Content Font Size" "my-plugin")
          (contentFontSize attributes)
          (λ value, obj_contentFontSize value) 0.1%Q 20%Q;
        SelectControl (i18n "Content Text Color" "my-plugin")
          (contentTextColor attributes)
          [(i18n "Black" "my-plugin", "#000000");
           (i18n "White" "my-plugin", "#ffffff");
           (i18n "Gray" "my-plugin", "#808080")]
          (λ value, obj_contentTextColor (Some value));
        RangeControl (i18n "Padding Top (rem)" "my-plugin") (top padding)
          (λ value, obj_padding (Some
             {| top := or_zero value; bottom := bottom padding;
                left := left padding; right := right padding |})) 0%Q 10%Q;
        RangeControl (i18n "Padding Bottom (rem)" "my-plugin") (bottom padding)
          (λ value, obj_padding (Some
             {| top := top padding; bottom := or_zero value;
                left := left padding; right := right padding |})) 0%Q 10%Q;
        RangeControl (i18n "Padding Left (rem)" "my-plugin") (left padding)
          (λ value, obj_padding (Some
             {| top := top padding; bottom := bottom padding;
                left := or_zero value; right := right padding |})) 0%Q 10%Q;
        RangeControl (i18n "Padding Right (rem)" "my-plugin") (right padding)
          (λ value, obj_padding (Some
             {| top := top padding; bottom := bottom padding;
                left := left padding; right := or_zero value |})) 0%Q 10%Q];
  colorSettings :=
    [colorSetting (i18n "Background Color" "my-plugin") (backgroundColor attributes)
       (λ value, obj_backgroundColor value);
     colorSetting (i18n "Title Color" "my-plugin") (titleTextColor attributes)
       (λ value, obj_titleTextColor value);
     colorSetting (i18n "Content Color" "my-plugin") (contentTextColor attributes)
       (λ value, obj_contentTextColor value)];
  blockProps := useBlockProps blockClassName;
  sectionStyle := {|
    Markup.padding :=
      js_number_to_string (top padding) +:+ "rem "
        +:+ js_number_to_string (right padding) +:+ "rem "
        +:+ js_number_to_string (bottom padding) +:+ "rem "
        +:+ js_number_to_string (left padding) +:+ "rem";
    Markup.alignItems := alignment_value (alignment attributes);
    Markup.backgroundColor := backgroundColor attributes |};
  sectionChildren :=
    (if showTitle attributes
     then [{| tagName := "h2";
              className := blockClassName +:+ "__title";
              value := title attributes;
              onChange := λ value, obj_title (Some value);
              style := {|
                Markup.color := titleTextColor attributes;
                Markup.fontSize :=
                  js_number_to_string (titleFontSize attributes) +:+ "rem" |} |}]
     else [])
    ++ [{| tagName := "p";
           className := blockClassName +:+ "__content";
           value := content attributes;
           onChange := λ value, obj_content (Some value);
           style := {|
             Markup.color := contentTextColor attributes;
             Markup.fontSize :=
               js_number_to_string (contentFontSize attributes) +:+ "rem" |} |}]
|}.

(** What the preview shows once its editing affordances are taken away. *)
Definition preview (r : Rendered) : Markup.Tree := {|
  Markup.container := sectionStyle r;
  Markup.children :=
    map (λ t, {| Markup.tag := tagName t; Markup.style := style t;
                 Markup.body := value t |}) (sectionChildren r)
|}.

End Edit.

End Editor.

(** ** From the editor to the server

    The host stores the attributes of a block as a JSON object keyed by the
    field names of [BlockAttributes] and hands the decoded object to
    render.php as [$attributes]. *)

Definition padding_array (p : Editor.Padding) : gmap string Php.scalar :=
  {[ "top" := Php.SNum (Editor.top p);
     "bottom" := Php.SNum (Editor.bottom p);
     "left" := Php.SNum (Editor.left p);
     "right" := Php.SNum (Editor.right p) ]}.

Definition to_attributes (a : Editor.BlockAttributes) : gmap string Php.value :=
  {[ "title" := Php.VStr (Editor.title a);
     "showTitle" := Php.VBool (Editor.showTitle a);
     "titleTextColor" := Php.VStr (Editor.titleTextColor a);
     "titleFontSize" := Php.VNum (Editor.titleFontSize a);
     "content" := Php.VStr (Editor.content a);
     "contentTextColor" := Php.VStr (Editor.contentTextColor a);
     "contentFontSize" := Php.VNum (Editor.contentFontSize a);
     "backgroundColor" := Php.VStr (Editor.backgroundColor a);
     "padding" := Php.VArray (padding_array (Editor.padding a));
     "alignment" := Php.VStr (Editor.alignment_value (Editor.alignment a)) ]}.

(** ** What the specification says, in its own words *)

Module Spec.

(** The styling projection rule, over the way a number is printed ([num])
    and the way a text reaches the output ([txt]). *)
Definition container_style (num : number → string) (txt : string → string)
    (a : Editor.BlockAttributes) : Markup.ContainerStyle := {|
  Markup.padding :=
    num (Editor.top (Editor.padding a)) +:+ "rem "
      +:+ num (Editor.right (Editor.padding a)) +:+ "rem "
      +:+ num (Editor.bottom (Editor.padding a)) +:+ "rem "
      +:+ num (Editor.left (Editor.padding a)) +:+ "rem";
  Markup.backgroundColor := txt (Editor.backgroundColor a);
  Markup.alignItems := txt (Editor.alignment_value (Editor.alignment a))
|}.

Definition title_style (num : number → string) (txt : string → string)
    (a : Editor.BlockAttributes) : Markup.TextStyle := {|
  Markup.color := txt (Editor.titleTextColor a);
  Markup.fontSize := num (Editor.titleFontSize a) +:+ "rem"
|}.

Definition content_style (num : number → string) (txt : string → string)
    (a : Editor.BlockAttributes) : Markup.TextStyle := {|
  Markup.color := txt (Editor.contentTextColor a);
  Markup.fontSize := num (Editor.contentFontSize a) +:+ "rem"
|}.

(** The range of each numeric field. *)
Definition within (lo hi v : number) : bool := Qle_bool lo v && Qle_bool v hi.

Definition padding_in_range (p : Editor.Padding) : bool :=
  within 0 10 (Editor.top p) && within 0 10 (Editor.bottom p)
    && within 0 10 (Editor.left p) && within 0 10 (Editor.right p).

Definition numbers_in_range (a : Editor.BlockAttributes) : bool :=
  within 0.1 5 (Editor.titleFontSize a)
    && within 0.1 20 (Editor.contentFontSize a)
    && padding_in_range (Editor.padding a).

(** "clamped to their stated range" *)
Definition clamp (lo hi v : number) : number :=
  if Qle_bool v lo then lo else if Qle_bool hi v then hi else v.

(** The defaults the schema states for a field that is absent. *)
Definition stated_defaults : list (string * Php.value) :=
  [("title", Php.VStr "Block Title");
   ("showTitle", Php.VBool true);
   ("titleFontSize", Php.VNum 3);
   ("contentFontSize", Php.VNum 1);
   ("backgroundColor", Php.VStr "#ffffff");
   ("padding", Php.default_padding);
   ("alignment", Php.VStr "center")].

Definition sides : list string := ["top"; "bottom"; "left"; "right"].

(** "treated as a partial merge against defaults": each side of the padding
    render.php uses is the given one, or 2 when it is not given. *)
Definition merged_with_default (given : gmap string Php.scalar) (l : Php.Locals)
    : Prop :=
  ∀ side, side ∈ sides →
    Php.offsetGet (Php.padding l) side
    = Some (default (Php.SNum 2) (given !! side)).

(** The fields of the schema that a settings panel is to cover. *)
Definition schema_fields : list string :=
  ["title"; "showTitle"; "titleTextColor"; "titleFontSize"; "content";
   "contentTextColor"; "contentFontSize"; "backgroundColor"; "padding";
   "alignment"].

End Spec.

(** ** Observations on render.php's variables *)

Definition is_null (v : Php.value) : bool :=
  match v with
  | Php.VScalar Php.SNull => true
  | _ => false
  end.

(** The variable render.php keeps a schema field in. *)
Definition local_of (l : Php.Locals) (field : string) : option Php.value :=
  if String.eqb field "title" then Some (Php.title l)
  else if String.eqb field "showTitle" then Some (Php.show_title l)
  else if String.eqb field "titleTextColor" then Some (Php.title_color l)
  else if String.eqb field "titleFontSize" then Some (Php.title_size l)
  else if String.eqb field "content" then Some (Php.content l)
  else if String.eqb field "contentTextColor" then Some (Php.content_color l)
  else if String.eqb field "contentFontSize" then Some (Php.content_size l)
  else if String.eqb field "backgroundColor" then Some (Php.background_color l)
  else if String.eqb field "padding" then Some (Php.padding l)
  else if String.eqb field "alignment" then Some (Php.alignment l)
  else None.

(** A padding side is defined when reading it succeeds with a value other
    than null. *)
Definition side_defined (l : Php.Locals) (side : string) : bool :=
  match Php.offsetGet (Php.padding l) side with
  | Some Php.SNull | None => false
  | Some _ => true
  end.

(** No variable and no padding side is undefined. *)
Definition complete (l : Php.Locals) : bool :=
  forallb (λ field, match local_of l field with
                    | Some v => negb (is_null v)
                    | None => false
                    end) Spec.schema_fields
    && forallb (side_defined l) Spec.sides.

(** The padding attribute is either not given, or an array with its four
    sides. *)
Definition padding_whole (attributes : gmap string Php.value) : bool :=
  match attributes !! "padding" with
  | None | Some (Php.VScalar Php.SNull) => true
  | Some (Php.VArray a) =>
      forallb (λ side, match a !! side with
                       | None | Some Php.SNull => false
                       | Some _ => true
                       end) Spec.sides
  | Some (Php.VScalar _) => false
  end.

(** ** Observations on the settings panel *)

(** What a control can hand to its [onChange]. *)
Inductive Input :=
| InBool (b : bool)
| InNumber (n : option number)
| InString (s : string).

(** The object a control passes to [setAttributes] on an input of its kind;
    on any other input it does not fire. *)
Definition fire (c : Editor.Control) (i : Input) : option Editor.Partial.t :=
  match c, i with
  | Editor.ToggleControl _ _ onChange, InBool b => Some (onChange b)
  | Editor.RangeControl _ _ onChange _ _, InNumber n => Some (onChange n)
  | Editor.SelectControl _ _ _ onChange, InString s => Some (onChange s)
  | _, _ => None
  end.

(** An input the control's declared constraint admits: a number between
    [min] and [max], one of the listed options, any boolean. *)
Definition admits (c : Editor.Control) (i : Input) : bool :=
  match c, i with
  | Editor.ToggleControl _ _ _, InBool _ => true
  | Editor.RangeControl _ _ _ lo hi, InNumber (Some v) => Spec.within lo hi v
  | Editor.SelectControl _ _ options _, InString s =>
      existsb (λ o, String.eqb (snd o) s) options
  | _, _ => false
  end.

(** The field names an object defines. *)
Definition key_of {A} (name : string) (field : Editor.Field A) : list string :=
  match field with
  | Editor.Absent => []
  | _ => [name]
  end.

Definition keys (p : Editor.Partial.t) : list string :=
  key_of "title" (Editor.Partial.title p)
  ++ key_of "showTitle" (Editor.Partial.showTitle p)
  ++ key_of "titleTextColor" (Editor.Partial.titleTextColor p)
  ++ key_of "titleFontSize" (Editor.Partial.titleFontSize p)
  ++ key_of "content" (Editor.Partial.content p)
  ++ key_of "contentTextColor" (Editor.Partial.contentTextColor p)
  ++ key_of "contentFontSize" (Editor.Partial.contentFontSize p)
  ++ key_of "backgroundColor" (Editor.Partial.backgroundColor p)
  ++ key_of "padding" (Editor.Partial.padding p)
  ++ key_of "alignment" (Editor.Partial.alignment p).

(** The four sides, to speak of one side and of the other three. *)
Inductive Side := Top | Bottom | Left | Right.

Definition side_of (s : Side) (p : Editor.Padding) : number :=
  match s with
  | Top => Editor.top p
  | Bottom => Editor.bottom p
  | Left => Editor.left p
  | Right => Editor.right p
  end.

Definition side_label (s : Side) : string :=
  match s with
  | Top => "Padding Top (rem)"
  | Bottom => "Padding Bottom (rem)"
  | Left => "Padding Left (rem)"
  | Right => "Padding Right (rem)"
  end.

Definition other_sides (s : Side) : list Side :=
  match s with
  | Top => [Bottom; Left; Right]
  | Bottom => [Top; Left; Right]
  | Left => [Top; Bottom; Right]
  | Right => [Top; Bottom; Left]
  end.

(** Everything but the padding is the same in both. *)
Definition same_but_padding (a b : Editor.BlockAttributes) : Prop :=
  Editor.title a = Editor.title b
  ∧ Editor.showTitle a = Editor.showTitle b
  ∧ Editor.titleTextColor a = Editor.titleTextColor b
  ∧ Editor.titleFontSize a = Editor.titleFontSize b
  ∧ Editor.content a = Editor.content b
  ∧ Editor.contentTextColor a = Editor.contentTextColor b
  ∧ Editor.contentFontSize a = Editor.contentFontSize b
  ∧ Editor.backgroundColor a = Editor.backgroundColor b
  ∧ Editor.alignment a = Editor.alignment b.

(** What a control shows: its current value with the range or the options
    it is limited to. *)
Inductive Shown :=
| Checked (b : bool)
| Ranged (value lo hi : number)
| Chosen (value : string) (options : list string)
| Colour (value : string).

Record Description := {
  d_label : string;
  d_shown : Shown;
  d_updates : list string
}.

Definition describe (c : Editor.Control) : Description :=
  match c with
  | Editor.ToggleControl label checked onChange =>
      {| d_label := label; d_shown := Checked checked;
         d_updates := keys (onChange checked) |}
  | Editor.RangeControl label value onChange lo hi =>
      {| d_label := label; d_shown := Ranged value lo hi;
         d_updates := keys (onChange (Some value)) |}
  | Editor.SelectControl label value options onChange =>
      {| d_label := label; d_shown := Chosen value (map snd options);
         d_updates := keys (onChange value) |}
  end.

Definition describe_colour (c : Editor.ColorSetting) : Description :=
  match c with
  | Editor.colorSetting label value onChange =>
      {| d_label := label; d_shown := Colour value;
         d_updates := keys (onChange (Some value)) |}
  end.

(** The settings-panel description of a render. *)
Definition panel (r : Editor.Rendered) : list Description :=
  map describe (Editor.panelBody r) ++ map describe_colour (Editor.colorSettings r).

Definition controlled_fields (r : Editor.Rendered) : list string :=
  concat (map d_updates (panel r)).

Definition covers (r : Editor.Rendered) (field : string) : bool :=
  existsb (String.eqb field) (controlled_fields r).

(** The attributes after the [n]-th control of the settings panel has fired
    on an input. *)
Definition update_through `{JsRuntime} (a : Editor.BlockAttributes) (n : nat)
    (i : Input) : option Editor.BlockAttributes :=
  c ← Editor.panelBody (Editor.Edit a) !! n;
  p ← fire c i;
  Editor.setAttributes a p.

(** The number [v] is stored: each numeric field is as before or is [v], and
    one of them is [v]. *)
Definition stored_as_handed (a a' : Editor.BlockAttributes) (v : number) : Prop :=
  (Editor.titleFontSize a' = Editor.titleFontSize a ∨ Editor.titleFontSize a' = v)
  ∧ (Editor.contentFontSize a' = Editor.contentFontSize a
     ∨ Editor.contentFontSize a' = v)
  ∧ Forall (λ s, side_of s (Editor.padding a') = side_of s (Editor.padding a)
                 ∨ side_of s (Editor.padding a') = v) [Top; Bottom; Left; Right]
  ∧ (Editor.titleFontSize a' = v ∨ Editor.contentFontSize a' = v
     ∨ Exists (λ s, side_of s (Editor.padding a') = v) [Top; Bottom; Left; Right]).

(** The text a side of a given padding record is printed as. *)
Definition side_text `{PhpRuntime} (given : gmap string Php.scalar) (side : string)
    : string :=
  esc_attr (Php.strval_scalar (default Php.SNull (given !! side))).

(** ** Markup characters *)

(** The characters that open or close a tag or an attribute value. *)
Definition is_markup (c : ascii) : bool :=
  Ascii.eqb c "<"%char || Ascii.eqb c ">"%char || Ascii.eqb c (Ascii.ascii_of_nat 34)
    || Ascii.eqb c "'"%char.

Fixpoint markup_chars (s : string) : nat :=
  match s with
  | EmptyString => 0
  | String c s' => (if is_markup c then 1 else 0) + markup_chars s'
  end.

(** ** A reference runtime

    One runtime to evaluate the two renderings on concrete attributes:
    the five characters WordPress's escaping functions replace are replaced
    by their entities, a number is printed by its decimal digits, the
    block instance is the list of its additional class names, which the
    wrapper attributes hold after the class, and texts are not translated. *)

Fixpoint specialchars (s : string) : string :=
  match s with
  | EmptyString => EmptyString
  | String c s' =>
      (if Ascii.eqb c "&"%char then "&amp;"
       else if Ascii.eqb c "<"%char then "&lt;"
       else if Ascii.eqb c ">"%char then "&gt;"
       else if Ascii.eqb c (Ascii.ascii_of_nat 34) then "&quot;"
       else if Ascii.eqb c "'"%char then "&#039;"
       else String c EmptyString) +:+ specialchars s'
  end.

Fixpoint fraction_digits (fuel : nat) (r d : Z) : string :=
  match fuel with
  | O => EmptyString
  | S fuel' =>
      if (r =? 0)%Z then EmptyString
      else pretty ((r * 10) `div` d)%Z +:+ fraction_digits fuel' ((r * 10) `mod` d)%Z d
  end.

Definition decimal (q : number) : string :=
  let n := Z.abs (Qnum q) in
  let d := Z.pos (Qden q) in
  (if (Qnum q <? 0)%Z then "-" else EmptyString)
    +:+ pretty (n `div` d)%Z
    +:+ (if (n `mod` d =? 0)%Z then EmptyString else "." +:+ fraction_digits 17 (n `mod` d)%Z d).

Definition reference_php : PhpRuntime := {|
  WP_Block := list string;
  esc_attr := specialchars;
  esc_html := specialchars;
  get_block_wrapper_attributes := λ block class,
    "class=" +:+ dq +:+ class +:+ fold_right (λ name rest, " " +:+ name +:+ rest) EmptyString block
      +:+ dq;
  php_number_to_string := decimal
|}.

(** A block instance with no class of its own. *)
Definition plain_block : @WP_Block reference_php := [].

Definition reference_js : JsRuntime := {|
  i18n := λ text domain, text;
  useBlockProps := λ class, "class=" +:+ dq +:+ class +:+ dq;
  js_number_to_string := decimal
|}.

(** The attributes of the specification's end-to-end example, with colours
    for the two texts. *)
Definition sample : Editor.BlockAttributes := {|
  Editor.title := "Hi";
  Editor.showTitle := true;
  Editor.titleTextColor := "#1a202c";
  Editor.titleFontSize := 2;
  Editor.content := "World";
  Editor.contentTextColor := "#000000";
  Editor.contentFontSize := 1;
  Editor.backgroundColor := "#fff";
  Editor.padding := {| Editor.top := 1; Editor.bottom := 1; Editor.left := 1; Editor.right := 1 |};
  Editor.alignment := Editor.AlignLeft
|}.

Definition hidden_title (a : Editor.BlockAttributes) : Editor.BlockAttributes :=
  default a (Editor.setAttributes a (Editor.obj_showTitle (Some false))).

(** ** Further observations *)

(** The attribute keys the text render.php prints depends on: the keys it
    reads, but for [showTitle], whose variable it never uses. *)
Definition printed_keys : list string :=
  ["title"; "titleTextColor"; "titleFontSize"; "content"; "contentColor";
   "contentFontSize"; "backgroundColor"; "padding"; "alignment"].

(** The input that is the value a control shows. *)
Definition shown_input (c : Editor.Control) : Input :=
  match c with
  | Editor.ToggleControl _ checked _ => InBool checked
  | Editor.RangeControl _ value _ _ _ => InNumber (Some value)
  | Editor.SelectControl _ value _ _ => InString value
  end.

(** The attributes after the [n]-th text of the preview has been edited in
    place to [v]. *)
Definition edit_in_place `{JsRuntime} (a : Editor.BlockAttributes) (n : nat)
    (v : string) : option Editor.BlockAttributes :=
  t ← Editor.sectionChildren (Editor.Edit a) !! n;
  Editor.setAttributes a (Editor.onChange t v).

(** The attributes after the [n]-th colour setting has fired on a colour. *)
Definition update_through_colour `{JsRuntime} (a : Editor.BlockAttributes) (n : nat)
    (v : option string) : option Editor.BlockAttributes :=
  c ← Editor.colorSettings (Editor.Edit a) !! n;
  match c with
  | Editor.colorSetting _ _ onChange => Editor.setAttributes a (onChange v)
  end.

(** Where the control of a padding side stands in the panel body. *)
Definition padding_index (a : Editor.BlockAttributes) (s : Side) : nat :=
  (if Editor.showTitle a then 4 else 3)
  + match s with Top => 0 | Bottom => 1 | Left => 2 | Right => 3 end.

(** Two controls of one render fire one after the other, with no render in
    between: both callbacks are those of [Edit a]. *)
Definition update_twice_from_one_render `{JsRuntime} (a : Editor.BlockAttributes)
    (n : nat) (i : Input) (m : nat) (j : Input) : option Editor.BlockAttributes :=
  c ← Editor.panelBody (Editor.Edit a) !! n;
  p ← fire c i;
  d ← Editor.panelBody (Editor.Edit a) !! m;
  q ← fire d j;
  a' ← Editor.setAttributes a p;
  Editor.setAttributes a' q.

(** The descriptions of the controls that update a field. *)
Definition controls_of (field : string) (r : Editor.Rendered) : list Description :=
  List.filter (λ d, existsb (String.eqb field) (d_updates d)) (panel r).

(** The attributes with the title shown and the content coloured by
    render.php's fallback. *)
Definition as_printed (a : Editor.BlockAttributes) : Editor.BlockAttributes :=
  default a
    (Editor.setAttributes a
       (Editor.Partial.Build_t Editor.Absent (Editor.Value true) Editor.Absent
          Editor.Absent Editor.Absent (Editor.Value "#4a5568") Editor.Absent
          Editor.Absent Editor.Absent Editor.Absent)).

(** The texts of an attribute set that render.php prints in style
    attributes, and those it prints in element bodies. *)
Definition style_texts `{JsRuntime} (a : Editor.BlockAttributes) : list string :=
  [js_number_to_string (Editor.top (Editor.padding a));
   js_number_to_string (Editor.right (Editor.padding a));
   js_number_to_string (Editor.bottom (Editor.padding a));
   js_number_to_string (Editor.left (Editor.padding a));
   Editor.backgroundColor a;
   Editor.alignment_value (Editor.alignment a);
   Editor.titleTextColor a;
   js_number_to_string (Editor.titleFontSize a);
   "#4a5568";
   js_number_to_string (Editor.contentFontSize a)].

Definition body_texts (a : Editor.BlockAttributes) : list string :=
  [Editor.title a; Editor.content a].

(** The numbers of an attribute set that both renderings print. *)
Definition printed_numbers (a : Editor.BlockAttributes) : list number :=
  [Editor.top (Editor.padding a);
   Editor.right (Editor.padding a);
   Editor.bottom (Editor.padding a);
   Editor.left (Editor.padding a);
   Editor.titleFontSize a;
   Editor.contentFontSize a].

(** * Properties *)

(** ** Strings *)

Lemma append_assoc (a b c : string) : (a +:+ b) +:+ c = a +:+ b +:+ c.
Proof.
  induction a as [|x a IH]; [done |].
  change (String x ((a +:+ b) +:+ c) = String x (a +:+ b +:+ c)).
  by rewrite IH.
Qed.

Lemma markup_chars_app (a b : string) :
  markup_chars (a +:+ b) = markup_chars a + markup_chars b.
Proof.
  induction a as [|x a IH]; [done |].
  change (String x a +:+ b) with (String x (a +:+ b)).
  simpl. rewrite IH. lia.
Qed.

Lemma specialchars_no_markup (s : string) : markup_chars (specialchars s) = 0.
Proof.
  induction s as [|c s IH]; [done |].
  cbn [specialchars]. rewrite markup_chars_app, IH.
  destruct (Ascii.eqb_spec c "&"); [done |].
  destruct (Ascii.eqb_spec c "<"); [done |].
  destruct (Ascii.eqb_spec c ">"); [done |].
  destruct (Ascii.eqb_spec c (ascii_of_nat 34)); [done |].
  destruct (Ascii.eqb_spec c "'"); [done |].
  simpl. unfold is_markup.
  repeat match goal with
         | Hne : c ≠ ?x |- _ => apply Ascii.eqb_neq in Hne; rewrite Hne; clear Hne
         end.
  done.
Qed.

(** ** render.php on the attributes of the editor *)

Section Static.
Context `{PhpRuntime}.
Variable block : WP_Block.

(** The text render.php prints is the text of the tree it describes. *)
Lemma template_to_html (l : Php.Locals) :
  Php.template block l
  = Markup.to_html (get_block_wrapper_attributes block "test-block") <$> Php.tree l.
Proof.
  unfold Php.template, Php.tree.
  destruct (Php.offsetGet (Php.padding l) "top") as [t|]; [|done].
  destruct (Php.offsetGet (Php.padding l) "right") as [r|]; [|done].
  destruct (Php.offsetGet (Php.padding l) "bottom") as [b|]; [|done].
  destruct (Php.offsetGet (Php.padding l) "left") as [e|]; [|done].
  simpl. f_equal.
  unfold Markup.to_html, Markup.elements_html, Markup.element_html,
    Markup.style_attribute, Php.h2, Php.p.
  simpl. rewrite !append_assoc. reflexivity.
Qed.

Lemma locals_to_attributes (a : Editor.BlockAttributes) :
  Php.locals (to_attributes a) = {|
    Php.title := Php.VStr (Editor.title a);
    Php.show_title := Php.VBool (Editor.showTitle a);
    Php.title_color := Php.VStr (Editor.titleTextColor a);
    Php.title_size := Php.VNum (Editor.titleFontSize a);
    Php.content := Php.VStr (Editor.content a);
    Php.content_color := Php.VStr "#4a5568";
    Php.content_size := Php.VNum (Editor.contentFontSize a);
    Php.background_color := Php.VStr (Editor.backgroundColor a);
    Php.padding := Php.VArray (padding_array (Editor.padding a));
    Php.alignment := Php.VStr (Editor.alignment_value (Editor.alignment a))
  |}.
Proof. reflexivity. Qed.

End Static.

(** ** The two renderings of one attribute set *)

Section Renderings.
Context `{PhpRuntime} `{JsRuntime}.
Variable block : WP_Block.

(** The tree render.php describes for the attributes of the editor. *)
Lemma render_tree_to_attributes (a : Editor.BlockAttributes) :
  Php.render_tree (to_attributes a) = Some {|
    Markup.container := Spec.container_style (esc_attr ∘ php_number_to_string) esc_attr a;
    Markup.children :=
      [{| Markup.tag := "h2";
          Markup.style := Spec.title_style (esc_attr ∘ php_number_to_string) esc_attr a;
          Markup.body := esc_html (Editor.title a) |};
       {| Markup.tag := "p";
          Markup.style := {|
            Markup.color := esc_attr "#4a5568";
            Markup.fontSize :=
              esc_attr (php_number_to_string (Editor.contentFontSize a)) +:+ "rem" |};
          Markup.body := esc_html (Editor.content a) |}]
  |}.
Proof.
  unfold Php.render_tree. rewrite locals_to_attributes.
  reflexivity.
Qed.

Lemma render_to_attributes (a : Editor.BlockAttributes) :
  Php.render block (to_attributes a)
  = Markup.to_html (get_block_wrapper_attributes block "test-block")
      <$> Php.render_tree (to_attributes a).
Proof. apply template_to_html. Qed.

(** The tree the editor shows for the same attributes. *)
Lemma preview_Edit (a : Editor.BlockAttributes) :
  Editor.preview (Editor.Edit a) = {|
    Markup.container := Spec.container_style js_number_to_string id a;
    Markup.children :=
      (if Editor.showTitle a
       then [{| Markup.tag := "h2";
                Markup.style := Spec.title_style js_number_to_string id a;
                Markup.body := Editor.title a |}]
       else [])
      ++ [{| Markup.tag := "p";
             Markup.style := Spec.content_style js_number_to_string id a;
             Markup.body := Editor.content a |}]
  |}.
Proof.
  unfold Editor.preview, Editor.Edit. simpl.
  destruct (Editor.showTitle a); reflexivity.
Qed.

(** C8: both render paths give the container the padding shorthand
    "<top>rem <right>rem <bottom>rem <left>rem", the background colour and
    align-items = alignment. The editor builds them from the attributes as
    they are; render.php prints each value through [esc_attr], inside the
    section's style attribute. *)
Theorem container_style_on_both_paths (a : Editor.BlockAttributes) :
  Editor.sectionStyle (Editor.Edit a) = Spec.container_style js_number_to_string id a
  ∧ ∃ t,
      Php.render_tree (to_attributes a) = Some t
      ∧ Php.render block (to_attributes a)
        = Some (Markup.to_html (get_block_wrapper_attributes block "test-block") t)
      ∧ Markup.container t
        = Spec.container_style (esc_attr ∘ php_number_to_string) esc_attr a.
Proof.
  split; [reflexivity |].
  eexists. split; [apply render_tree_to_attributes |].
  split; [| reflexivity].
  by rewrite render_to_attributes, render_tree_to_attributes.
Qed.

(** C2: the static render is to hold a title element exactly when showTitle
    is true. render.php reads [$show_title] and never tests it: its output
    holds the h2, styled by titleTextColor and titleFontSize, whatever
    showTitle is, and is the same text with the title hidden; the editor
    shows the h2 exactly when showTitle is true. *)
Theorem static_title_whatever_showTitle (a : Editor.BlockAttributes) :
  (∃ t e,
     Php.render_tree (to_attributes a) = Some t
     ∧ Markup.has_tag "h2" t = true
     ∧ Markup.find_tag "h2" t = Some e
     ∧ Markup.style e = Spec.title_style (esc_attr ∘ php_number_to_string) esc_attr a)
  ∧ Php.render block (to_attributes (hidden_title a)) = Php.render block (to_attributes a)
  ∧ Markup.has_tag "h2" (Editor.preview (Editor.Edit a)) = Editor.showTitle a.
Proof.
  split; [| split].
  - do 2 eexists. split; [apply render_tree_to_attributes |]. by repeat split.
  - rewrite !render_to_attributes, !render_tree_to_attributes. reflexivity.
  - rewrite preview_Edit. by destruct (Editor.showTitle a).
Qed.

(** C3: both paths are to colour the content by contentTextColor. The editor
    does; render.php reads the key [contentColor], which no attribute set
    has, so its content colour is the fallback #4a5568 whatever
    contentTextColor is. The font size is contentFontSize on both paths. *)
Theorem static_content_color_is_the_fallback (a : Editor.BlockAttributes) :
  (∃ t e,
     Php.render_tree (to_attributes a) = Some t
     ∧ Markup.find_tag "p" t = Some e
     ∧ Markup.color (Markup.style e) = esc_attr "#4a5568"
     ∧ Markup.fontSize (Markup.style e)
       = esc_attr (php_number_to_string (Editor.contentFontSize a)) +:+ "rem")
  ∧ ∃ e,
      Markup.find_tag "p" (Editor.preview (Editor.Edit a)) = Some e
      ∧ Markup.style e = Spec.content_style js_number_to_string id a.
Proof.
  split.
  - do 2 eexists. split; [apply render_tree_to_attributes |]. by repeat split.
  - rewrite preview_Edit. destruct (Editor.showTitle a); by eexists.
Qed.

End Renderings.

(** C1: the static render and the preview of the editor are to carry the
    same styles. On the sample attributes (contentTextColor #000000) the
    content is #4a5568 in the static render and #000000 in the editor; with
    the title hidden the static render still has the h2 and the editor has
    none. *)
Theorem renderings_differ_on_sample :
  Markup.style <$> (@Php.render_tree reference_php (to_attributes sample)
                      ≫= Markup.find_tag "p")
  = Some {| Markup.color := "#4a5568"; Markup.fontSize := "1rem" |}
  ∧ Markup.style <$> Markup.find_tag "p" (Editor.preview (@Editor.Edit reference_js sample))
    = Some {| Markup.color := "#000000"; Markup.fontSize := "1rem" |}
  ∧ Markup.has_tag "h2" <$> @Php.render_tree reference_php (to_attributes (hidden_title sample))
    = Some true
  ∧ Markup.has_tag "h2" (Editor.preview (@Editor.Edit reference_js (hidden_title sample)))
    = false.
Proof. repeat split; vm_compute; reflexivity. Qed.

(** ** Defaulting in render.php *)

Lemma coalesce_not_null (read : option Php.value) (fallback : Php.value) :
  is_null fallback = false → is_null (Php.coalesce read fallback) = false.
Proof.
  intros Hd. destruct read as [[[| | |] |] |]; simpl; done.
Qed.

(** With the padding whole, every side of the variable [$padding] reads as a
    value. *)
Lemma padding_whole_sides (attributes : gmap string Php.value) :
  padding_whole attributes = true →
  forallb (side_defined (Php.locals attributes)) Spec.sides = true.
Proof.
  unfold padding_whole, side_defined, Php.locals. simpl.
  destruct (attributes !! "padding") as [[[| | |] | given] |]; simpl;
    try done.
  destruct (given !! "top") as [[| | |] |]; simpl; try done;
    destruct (given !! "bottom") as [[| | |] |]; simpl; try done;
    destruct (given !! "left") as [[| | |] |]; simpl; try done;
    destruct (given !! "right") as [[| | |] |]; simpl; done.
Qed.

(** C4, counterexample: a padding record that has only its top side leaves
    the other three sides undefined after defaulting. *)
Lemma partial_padding_is_not_completed :
  complete (Php.locals {[ "padding" := Php.VArray {[ "top" := Php.SNum 1 ]} ]}) = false.
Proof. vm_compute. reflexivity. Qed.

(** C4, as amended: for every attribute array whose padding is absent or has
    its four sides, render.php's defaulting leaves no variable and no
    padding side undefined, and a field that is absent takes its stated
    default (title "Block Title", showTitle true, titleFontSize 3,
    contentFontSize 1, backgroundColor #ffffff, padding 2 on every side,
    alignment center). *)
Theorem defaulting_is_complete (attributes : gmap string Php.value) :
  padding_whole attributes = true →
  complete (Php.locals attributes) = true
  ∧ Forall (λ '(field, stated),
              attributes !! field = None →
              local_of (Php.locals attributes) field = Some stated)
      Spec.stated_defaults.
Proof.
  intros Hwhole. split.
  - unfold complete. rewrite (padding_whole_sides _ Hwhole), andb_true_r.
    simpl. rewrite !coalesce_not_null by done. reflexivity.
  - unfold Spec.stated_defaults.
    repeat (apply Forall_cons_2; [simpl; intros Habs; unfold local_of; simpl; by rewrite Habs |]).
    apply Forall_nil_2.
Qed.

Lemma defaulting_is_complete_witness :
  padding_whole {[ "title" := Php.VStr "Hi" ]} = true
  ∧ complete (Php.locals {[ "title" := Php.VStr "Hi" ]}) = true
  ∧ Forall (λ '(field, stated),
              ({[ "title" := Php.VStr "Hi" ]} : gmap string Php.value) !! field = None →
              local_of (Php.locals {[ "title" := Php.VStr "Hi" ]}) field = Some stated)
      Spec.stated_defaults.
Proof.
  split; [reflexivity |].
  apply (defaulting_is_complete {[ "title" := Php.VStr "Hi" ]}). reflexivity.
Defined.

(** C7, counterexample: a padding record with only its top side is not
    merged with the default padding: its right side does not become 2. *)
Lemma partial_padding_is_not_merged :
  ¬ Spec.merged_with_default {[ "top" := Php.SNum 4 ]}
      (Php.locals {[ "padding" := Php.VArray {[ "top" := Php.SNum 4 ]} ]}).
Proof.
  intros Hmerge. specialize (Hmerge "right").
  assert (Hin : "right" ∈ Spec.sides) by (unfold Spec.sides; set_solver).
  specialize (Hmerge Hin). vm_compute in Hmerge. discriminate Hmerge.
Qed.

Section PresentPadding.
Context `{PhpRuntime}.
Variable block : WP_Block.

(** C7, as amended: a padding record that is present is used as it is given.
    render.php does not fail on it; each side it has is printed, and a side
    it lacks reads as null and is printed as the empty text in front of
    [rem]. Only a padding that is absent altogether takes the default. *)
Theorem present_padding_is_used_as_given
    (attributes : gmap string Php.value) (given : gmap string Php.scalar) :
  attributes !! "padding" = Some (Php.VArray given) →
  Php.padding (Php.locals attributes) = Php.VArray given
  ∧ (∀ side, Php.offsetGet (Php.padding (Php.locals attributes)) side
             = Some (default Php.SNull (given !! side)))
  ∧ ∃ t,
      Php.render_tree attributes = Some t
      ∧ Php.render block attributes
        = Some (Markup.to_html (get_block_wrapper_attributes block "test-block") t)
      ∧ Markup.padding (Markup.container t)
        = side_text given "top" +:+ "rem " +:+ side_text given "right" +:+ "rem "
            +:+ side_text given "bottom" +:+ "rem " +:+ side_text given "left" +:+ "rem".
Proof.
  intros Hgiven.
  assert (Hpad : Php.padding (Php.locals attributes) = Php.VArray given)
    by (simpl; by rewrite Hgiven).
  split; [done |]. split; [intros side; by rewrite Hpad |].
  unfold Php.render, Php.render_tree. rewrite template_to_html.
  unfold Php.tree. rewrite Hpad. simpl.
  eexists. split; [reflexivity |]. split; reflexivity.
Qed.

End PresentPadding.

Lemma present_padding_is_used_as_given_witness :
  ({[ "padding" := Php.VArray {[ "top" := Php.SNum 4 ]} ]} : gmap string Php.value)
    !! "padding" = Some (Php.VArray {[ "top" := Php.SNum 4 ]})
  ∧ ∃ t,
      @Php.render_tree reference_php
        {[ "padding" := Php.VArray {[ "top" := Php.SNum 4 ]} ]} = Some t
      ∧ Markup.padding (Markup.container t) = "4rem rem rem rem".
Proof.
  split; [reflexivity |].
  destruct (@present_padding_is_used_as_given reference_php plain_block
              {[ "padding" := Php.VArray {[ "top" := Php.SNum 4 ]} ]}
              {[ "top" := Php.SNum 4 ]}) as (_ & _ & t & Htree & _ & Hpadding);
    [reflexivity |].
  exists t. split; [exact Htree |]. rewrite Hpadding. reflexivity.
Defined.

(** ** Escaping in render.php *)

Section Escaping.
Context `{PhpRuntime}.
Variable block : WP_Block.
Hypothesis esc_attr_no_markup : ∀ s, markup_chars (esc_attr s) = 0.
Hypothesis esc_html_no_markup : ∀ s, markup_chars (esc_html s) = 0.

(** Whatever the variables hold, the text printed has the markup characters
    of the template and of the wrapper attributes, and no other. *)
Lemma template_markup_chars (l : Php.Locals) (out : string) :
  Php.template block l = Some out →
  markup_chars out
  = markup_chars (get_block_wrapper_attributes block "test-block") + 18.
Proof.
  unfold Php.template.
  destruct (Php.offsetGet (Php.padding l) "top") as [t|]; [|done].
  destruct (Php.offsetGet (Php.padding l) "right") as [r|]; [|done].
  destruct (Php.offsetGet (Php.padding l) "bottom") as [b|]; [|done].
  destruct (Php.offsetGet (Php.padding l) "left") as [e|]; [|done].
  simpl. intros [= <-].
  rewrite !markup_chars_app, !esc_attr_no_markup, !esc_html_no_markup.
  simpl. lia.
Qed.

(** C10: render.php prints every value through an escaping function. The
    title and the content are in the element bodies as [esc_html] gives
    them, every style value is in a style attribute as [esc_attr] gives it,
    and, the escaping functions leaving no markup character, the output has
    exactly the markup characters of the template and of the wrapper
    attributes: no value adds a tag or ends an attribute. *)
Theorem static_render_escapes_every_value (a : Editor.BlockAttributes) :
  ∃ t out,
    Php.render_tree (to_attributes a) = Some t
    ∧ Php.render block (to_attributes a) = Some out
    ∧ out = Markup.to_html (get_block_wrapper_attributes block "test-block") t
    ∧ map Markup.body (Markup.children t)
      = [esc_html (Editor.title a); esc_html (Editor.content a)]
    ∧ Markup.container t
      = Spec.container_style (esc_attr ∘ php_number_to_string) esc_attr a
    ∧ map Markup.style (Markup.children t)
      = [Spec.title_style (esc_attr ∘ php_number_to_string) esc_attr a;
         {| Markup.color := esc_attr "#4a5568";
            Markup.fontSize :=
              esc_attr (php_number_to_string (Editor.contentFontSize a)) +:+ "rem" |}]
    ∧ markup_chars out
      = markup_chars (get_block_wrapper_attributes block "test-block") + 18.
Proof.
  do 2 eexists. split; [apply render_tree_to_attributes |].
  split; [by rewrite render_to_attributes, render_tree_to_attributes |].
  repeat split.
  apply (template_markup_chars (Php.locals (to_attributes a))).
  fold (Php.render block (to_attributes a)).
  by rewrite render_to_attributes, render_tree_to_attributes.
Qed.

End Escaping.

Lemma static_render_escapes_every_value_witness :
  (∀ s, markup_chars (@esc_attr reference_php s) = 0)
  ∧ (∀ s, markup_chars (@esc_html reference_php s) = 0)
  ∧ ∃ out,
      @Php.render reference_php plain_block (to_attributes sample) = Some out
      ∧ markup_chars out = 20.
Proof.
  split; [exact specialchars_no_markup |].
  split; [exact specialchars_no_markup |].
  destruct (@static_render_escapes_every_value reference_php plain_block
              specialchars_no_markup specialchars_no_markup sample)
    as (t & out & _ & Hout & _ & _ & _ & _ & Hcount).
  exists out. split; [exact Hout |]. rewrite Hcount. reflexivity.
Defined.

(** ** Updates through the settings panel *)

Lemma within_true (lo hi v : number) :
  Spec.within lo hi v = true ↔ Qle_bool lo v = true ∧ Qle_bool v hi = true.
Proof. unfold Spec.within. apply andb_true_iff. Qed.

Lemma numbers_in_range_true (a : Editor.BlockAttributes) :
  Spec.numbers_in_range a = true ↔
  Spec.within 0.1 5 (Editor.titleFontSize a) = true
  ∧ Spec.within 0.1 20 (Editor.contentFontSize a) = true
  ∧ Spec.within 0 10 (Editor.top (Editor.padding a)) = true
  ∧ Spec.within 0 10 (Editor.bottom (Editor.padding a)) = true
  ∧ Spec.within 0 10 (Editor.left (Editor.padding a)) = true
  ∧ Spec.within 0 10 (Editor.right (Editor.padding a)) = true.
Proof.
  unfold Spec.numbers_in_range, Spec.padding_in_range.
  rewrite !andb_true_iff. tauto.
Qed.

(** C5, counterexample: handed 999, the title font size control stores 999,
    not 5, and the numbers are no longer in range; handed -5, the padding
    top control stores -5, not 0. *)
Lemma out_of_range_value_is_stored :
  Editor.titleFontSize
    <$> @update_through reference_js sample 1 (InNumber (Some 999%Q)) = Some 999%Q
  ∧ Spec.numbers_in_range
      <$> @update_through reference_js sample 1 (InNumber (Some 999%Q)) = Some false
  ∧ Spec.clamp 0.1 5 999 = 5%Q
  ∧ Editor.top ∘ Editor.padding
      <$> @update_through reference_js sample 4 (InNumber (Some (-5)%Q)) = Some (-5)%Q
  ∧ Spec.clamp 0 10 (-5) = 0%Q.
Proof. repeat split; vm_compute; reflexivity. Qed.

Section Panel.
Context `{JsRuntime}.

(** C5, as amended: the callbacks of the block do not clamp. Each range
    control declares the range of its field to the host's control (title
    font size 0.1 to 5, content font size 0.1 to 20, each padding side 0 to
    10) and its callback stores the number it is handed as it is. So, from
    attributes whose numbers are in range, an update through a control of
    the panel on an input the control admits gives attributes whose numbers
    are in range. *)
Theorem admitted_updates_stay_in_range
    (a : Editor.BlockAttributes) (n : nat) (c : Editor.Control) (i : Input) :
  Spec.numbers_in_range a = true →
  Editor.panelBody (Editor.Edit a) !! n = Some c →
  admits c i = true →
  ∃ a',
    update_through a n i = Some a'
    ∧ Spec.numbers_in_range a' = true
    ∧ match i with
      | InNumber (Some v) => stored_as_handed a a' v
      | _ => True
      end.
Proof.
  rewrite numbers_in_range_true. intros (Ht & Hc & Hpt & Hpb & Hpl & Hpr) Hn Hadm.
  unfold update_through. rewrite Hn. simpl.
  revert Hn. unfold Editor.Edit. simpl.
  destruct (Editor.showTitle a); simpl; intros Hn;
    repeat (destruct n as [|n]; simpl in Hn; [injection Hn as <- |]);
    try discriminate Hn;
    destruct i as [b | [v|] | s]; simpl in Hadm; try discriminate Hadm;
    simpl; eexists; (split; [reflexivity |]);
    rewrite numbers_in_range_true; simpl;
    unfold stored_as_handed; simpl;
    repeat split; auto;
    repeat first [apply Forall_nil_2 | apply Forall_cons_2]; simpl; auto 10.
Qed.

End Panel.

Lemma admitted_updates_stay_in_range_witness :
  Spec.numbers_in_range sample = true
  ∧ Editor.panelBody (@Editor.Edit reference_js sample) !! 1
    = Some (Editor.RangeControl "Title Font Size (rem)" 2 Editor.obj_titleFontSize 0.1 5)
  ∧ admits (Editor.RangeControl "Title Font Size (rem)" 2 Editor.obj_titleFontSize 0.1 5)
      (InNumber (Some 4.5%Q)) = true
  ∧ ∃ a',
      @update_through reference_js sample 1 (InNumber (Some 4.5%Q)) = Some a'
      ∧ Spec.numbers_in_range a' = true
      ∧ stored_as_handed sample a' 4.5.
Proof.
  split; [reflexivity |]. split; [reflexivity |]. split; [reflexivity |].
  apply (@admitted_updates_stay_in_range reference_js sample 1
           (Editor.RangeControl "Title Font Size (rem)" 2 Editor.obj_titleFontSize 0.1 5)
           (InNumber (Some 4.5%Q))); reflexivity.
Defined.

(** ** Padding updates *)

Section PaddingUpdates.
Context `{JsRuntime}.

(** C6: for every attribute set, every side and every value handed over,
    the panel has the range control of that side, showing the side's
    current value, and the update it issues stores the value handed over (0
    when none is handed over) on that side, leaves the other three sides as
    they were and leaves every other attribute as it was. *)
Theorem padding_update_keeps_other_sides
    (a : Editor.BlockAttributes) (s : Side) (value : option number) :
  ∃ n f a',
    Editor.panelBody (Editor.Edit a) !! n
    = Some (Editor.RangeControl (i18n (side_label s) "my-plugin")
              (side_of s (Editor.padding a)) f 0 10)
    ∧ Editor.setAttributes a (f value) = Some a'
    ∧ update_through a n (InNumber value) = Some a'
    ∧ side_of s (Editor.padding a')
      = match value with
        | Some v => v
        | None => 0%Q
        end
    ∧ Forall (λ s', side_of s' (Editor.padding a') = side_of s' (Editor.padding a))
        (other_sides s)
    ∧ same_but_padding a' a.
Proof.
  exists (padding_index a s).
  destruct a as [t st tc ts c cc cs bg [pt pb pl pr] al].
  unfold update_through, padding_index, Editor.Edit. simpl.
  destruct st, s; simpl; do 2 eexists;
    (split; [reflexivity |]); (split; [reflexivity |]); (split; [reflexivity |]);
    (split; [by destruct value |]);
    (split; [repeat constructor |]);
    unfold same_but_padding; simpl; repeat split; reflexivity.
Qed.

End PaddingUpdates.

(** The example of the specification: from padding 2 on every side, setting
    the top to 4 gives top 4 and 2 on the other sides. *)
Example padding_top_to_four :
  Editor.padding
    <$> (Editor.setAttributes sample (Editor.obj_padding (Some
           {| Editor.top := 2; Editor.bottom := 2; Editor.left := 2; Editor.right := 2 |}))
         ≫= λ a, @update_through reference_js a 4 (InNumber (Some 4%Q)))
  = Some {| Editor.top := 4; Editor.bottom := 2; Editor.left := 2; Editor.right := 2 |}.
Proof. reflexivity. Qed.

(** ** The settings panel *)

(** C9, counterexample: the panel of the sample attributes has no control
    for the alignment, none for the title and none for the content, and
    with the title hidden it has none for the title font size. *)
Lemma panel_lacks_schema_fields :
  covers (@Editor.Edit reference_js sample) "alignment" = false
  ∧ covers (@Editor.Edit reference_js sample) "title" = false
  ∧ covers (@Editor.Edit reference_js sample) "content" = false
  ∧ covers (@Editor.Edit reference_js (hidden_title sample)) "titleFontSize" = false.
Proof. repeat split; vm_compute; reflexivity. Qed.

Section SettingsPanel.
Context `{JsRuntime}.

(** C9, as amended: for every attribute set the settings panel holds, in
    this order, a toggle for showTitle, the range of titleFontSize (0.1 to
    5) only while showTitle is true, the range of contentFontSize (0.1 to
    20), a select of contentTextColor among #000000, #ffffff and #808080,
    the ranges of the four padding sides (0 to 10), and colour settings for
    backgroundColor, titleTextColor and contentTextColor, each showing the
    current value of its field and updating that field. It has no control
    for title and content, which are edited in the preview, and none for
    alignment. *)
Theorem settings_panel_description (a : Editor.BlockAttributes) :
  panel (Editor.Edit a)
  = [{| d_label := i18n "Show Title" "my-plugin";
        d_shown := Checked (Editor.showTitle a); d_updates := ["showTitle"] |}]
    ++ (if Editor.showTitle a
        then [{| d_label := i18n "Title Font Size (rem)" "my-plugin";
                 d_shown := Ranged (Editor.titleFontSize a) 0.1 5;
                 d_updates := ["titleFontSize"] |}]
        else [])
    ++ [{| d_label := i18n "Content Font Size" "my-plugin";
           d_shown := Ranged (Editor.contentFontSize a) 0.1 20;
           d_updates := ["contentFontSize"] |};
        {| d_label := i18n "Content Text Color" "my-plugin";
           d_shown := Chosen (Editor.contentTextColor a) ["#000000"; "#ffffff"; "#808080"];
           d_updates := ["contentTextColor"] |};
        {| d_label := i18n "Padding Top (rem)" "my-plugin";
           d_shown := Ranged (Editor.top (Editor.padding a)) 0 10;
           d_updates := ["padding"] |};
        {| d_label := i18n "Padding Bottom (rem)" "my-plugin";
           d_shown := Ranged (Editor.bottom (Editor.padding a)) 0 10;
           d_updates := ["padding"] |};
        {| d_label := i18n "Padding Left (rem)" "my-plugin";
           d_shown := Ranged (Editor.left (Editor.padding a)) 0 10;
           d_updates := ["padding"] |};
        {| d_label := i18n "Padding Right (rem)" "my-plugin";
           d_shown := Ranged (Editor.right (Editor.padding a)) 0 10;
           d_updates := ["padding"] |};
        {| d_label := i18n "Background Color" "my-plugin";
           d_shown := Colour (Editor.backgroundColor a);
           d_updates := ["backgroundColor"] |};
        {| d_label := i18n "Title Color" "my-plugin";
           d_shown := Colour (Editor.titleTextColor a);
           d_updates := ["titleTextColor"] |};
        {| d_label := i18n "Content Color" "my-plugin";
           d_shown := Colour (Editor.contentTextColor a);
           d_updates := ["contentTextColor"] |}]
  ∧ covers (Editor.Edit a) "titleFontSize" = Editor.showTitle a
  ∧ covers (Editor.Edit a) "title" = false
  ∧ covers (Editor.Edit a) "content" = false
  ∧ covers (Editor.Edit a) "alignment" = false.
Proof.
  unfold covers, controlled_fields, panel, Editor.Edit. simpl.
  destruct (Editor.showTitle a); repeat split; reflexivity.
Qed.

End SettingsPanel.

(** ** The end-to-end example of the specification *)

Example end_to_end_static :
  @Php.render_tree reference_php (to_attributes sample) = Some {|
    Markup.container := {|
      Markup.padding := "1rem 1rem 1rem 1rem";
      Markup.backgroundColor := "#fff";
      Markup.alignItems := "left" |};
    Markup.children :=
      [{| Markup.tag := "h2";
          Markup.style := {| Markup.color := "#1a202c"; Markup.fontSize := "2rem" |};
          Markup.body := "Hi" |};
       {| Markup.tag := "p";
          Markup.style := {| Markup.color := "#4a5568"; Markup.fontSize := "1rem" |};
          Markup.body := "World" |}]
  |}.
Proof. vm_compute. reflexivity. Qed.

Example escaped_title :
  Markup.body <$> (@Php.render_tree reference_php {[ "title" := Php.VStr "<b>a&b</b>" ]}
                     ≫= Markup.find_tag "h2")
  = Some "&lt;b&gt;a&amp;b&lt;/b&gt;".
Proof. vm_compute. reflexivity. Qed.

(** * Further properties *)

(** ** render.php on any attribute array *)

Lemma coalesce_insert_null (attributes : gmap string Php.value)
    (k read : string) (fallback : Php.value) :
  Php.coalesce (<[k := Php.VScalar Php.SNull]> attributes !! read) fallback
  = Php.coalesce (delete k attributes !! read) fallback.
Proof.
  destruct (decide (k = read)) as [-> | Hne].
  - by rewrite lookup_insert_eq, lookup_delete_eq.
  - by rewrite lookup_insert_ne, lookup_delete_ne.
Qed.

Section AnyAttributes.
Context `{PhpRuntime}.
Variable block : WP_Block.

(** X1: an attribute that holds null is rendered as if it were absent,
    whatever the attribute. *)
Theorem null_attribute_is_absent (attributes : gmap string Php.value) (k : string) :
  Php.locals (<[k := Php.VScalar Php.SNull]> attributes)
  = Php.locals (delete k attributes)
  ∧ Php.render block (<[k := Php.VScalar Php.SNull]> attributes)
    = Php.render block (delete k attributes).
Proof.
  assert (Hlocals : Php.locals (<[k := Php.VScalar Php.SNull]> attributes)
                    = Php.locals (delete k attributes)).
  { unfold Php.locals. by rewrite !coalesce_insert_null. }
  split; [exact Hlocals |]. unfold Php.render. by rewrite Hlocals.
Qed.

(** X2: the section style, the h2 and the p that render.php prints depend
    on nine keys only. Two attribute arrays that agree on them give the same
    tree, whatever else they hold, [showTitle] and [contentTextColor]
    included; the texts printed for them are then the same whenever the
    wrapper attributes the host gives for the two blocks are the same. *)
Theorem render_depends_on_printed_keys (a b : gmap string Php.value) :
  Forall (λ k, a !! k = b !! k) printed_keys →
  Php.render_tree a = Php.render_tree b
  ∧ ∀ block_a block_b,
      get_block_wrapper_attributes block_a "test-block"
      = get_block_wrapper_attributes block_b "test-block" →
      Php.render block_a a = Php.render block_b b.
Proof.
  unfold printed_keys. intros Hagree.
  repeat match goal with
         | Hall : Forall _ (_ :: _) |- _ =>
             apply Forall_cons_1 in Hall; destruct Hall as [? Hall]
         end.
  assert (Htree : Php.render_tree a = Php.render_tree b).
  { unfold Php.render_tree, Php.tree, Php.h2, Php.p, Php.locals. simpl.
    repeat match goal with
           | Heq : a !! _ = b !! _ |- _ => rewrite Heq; clear Heq
           end.
    reflexivity. }
  split; [exact Htree |]. intros block_a block_b Hwrapper.
  unfold Php.render. rewrite !template_to_html.
  fold (Php.render_tree a). fold (Php.render_tree b). by rewrite Htree, Hwrapper.
Qed.

(** X3: render.php fails on an attribute array exactly when its padding is
    a string (reading a side of it is a TypeError). On a padding that is a
    number or a boolean it does not fail and prints every side as the empty
    text; on every other array it prints. *)
Theorem render_fails_on_string_padding_only (attributes : gmap string Php.value) :
  (Php.render block attributes = None
   ↔ ∃ s, attributes !! "padding" = Some (Php.VStr s))
  ∧ match attributes !! "padding" with
    | Some (Php.VScalar (Php.SNum _)) | Some (Php.VScalar (Php.SBool _)) =>
        Markup.padding ∘ Markup.container <$> Php.render_tree attributes
        = Some (esc_attr EmptyString +:+ "rem " +:+ esc_attr EmptyString +:+ "rem "
                  +:+ esc_attr EmptyString +:+ "rem " +:+ esc_attr EmptyString +:+ "rem")
    | _ => True
    end.
Proof.
  unfold Php.render, Php.render_tree, Php.template, Php.tree, Php.locals. simpl.
  destruct (attributes !! "padding") as [[[| b | n | s] | given] |]; simpl;
    (split; [split; [try discriminate | intros [? [=]]] | try done]);
    eauto.
Qed.

End AnyAttributes.

Lemma render_depends_on_printed_keys_witness :
  Forall (λ k, to_attributes sample !! k
               = <["showTitle" := Php.VBool false]>
                   (<["contentTextColor" := Php.VStr "#ffffff"]> (to_attributes sample)) !! k)
    printed_keys
  ∧ @Php.render_tree reference_php (to_attributes sample)
    = @Php.render_tree reference_php
        (<["showTitle" := Php.VBool false]>
           (<["contentTextColor" := Php.VStr "#ffffff"]> (to_attributes sample)))
  ∧ @Php.render reference_php plain_block (to_attributes sample)
    = @Php.render reference_php plain_block
        (<["showTitle" := Php.VBool false]>
           (<["contentTextColor" := Php.VStr "#ffffff"]> (to_attributes sample))).
Proof.
  assert (Hagree :
    Forall (λ k, to_attributes sample !! k
                 = <["showTitle" := Php.VBool false]>
                     (<["contentTextColor" := Php.VStr "#ffffff"]> (to_attributes sample)) !! k)
      printed_keys).
  { unfold printed_keys. repeat (apply Forall_cons_2; [reflexivity |]). apply Forall_nil_2. }
  split; [exact Hagree |].
  destruct (@render_depends_on_printed_keys reference_php _ _ Hagree) as [Htree Htext].
  split; [exact Htree |]. apply (Htext plain_block plain_block). reflexivity.
Defined.

Section AnyAttributesEscaped.
Context `{PhpRuntime}.
Variable block : WP_Block.
Hypothesis esc_attr_no_markup : ∀ s, markup_chars (esc_attr s) = 0.
Hypothesis esc_html_no_markup : ∀ s, markup_chars (esc_html s) = 0.

(** X4: whatever the attribute array holds, of whatever types and under
    whatever keys, the text render.php prints has the markup characters of
    the template and of the wrapper attributes and no other, the escaping
    functions leaving none. *)
Theorem render_markup_chars_any_attributes (attributes : gmap string Php.value) :
  from_option
    (λ out, markup_chars out
            = markup_chars (get_block_wrapper_attributes block "test-block") + 18)
    True (Php.render block attributes).
Proof.
  destruct (Php.render block attributes) as [out|] eqn:Hout; [| done]. simpl.
  by apply (template_markup_chars block esc_attr_no_markup esc_html_no_markup
              (Php.locals attributes)).
Qed.

End AnyAttributesEscaped.

Lemma render_markup_chars_any_attributes_witness :
  (∀ s, markup_chars (@esc_attr reference_php s) = 0)
  ∧ (∀ s, markup_chars (@esc_html reference_php s) = 0)
  ∧ from_option (λ out, markup_chars out = 20) False
      (@Php.render reference_php plain_block
         {[ "title" := Php.VStr "<script>alert(1)</script>";
            "backgroundColor" := Php.VStr (dq +:+ "><b>");
            "padding" := Php.VArray {[ "top" := Php.SStr "'><i>" ]} ]}).
Proof.
  split; [exact specialchars_no_markup |].
  split; [exact specialchars_no_markup |].
  pose proof (@render_markup_chars_any_attributes reference_php plain_block
                specialchars_no_markup specialchars_no_markup
                {[ "title" := Php.VStr "<script>alert(1)</script>";
                   "backgroundColor" := Php.VStr (dq +:+ "><b>");
                   "padding" := Php.VArray {[ "top" := Php.SStr "'><i>" ]} ]})
    as Hcount.
  destruct (@Php.render reference_php plain_block _) as [out|] eqn:Hout;
    [exact Hcount | vm_compute in Hout; discriminate Hout].
Defined.

Section DefaultRender.
Context `{PhpRuntime}.

(** X5: when none of the nine printed keys is set, render.php prints the
    block of its fallbacks: padding 2rem on every side, white background,
    centred, the title "Block Title" in #1a202c at 3rem and the placeholder
    content in #4a5568 at 1rem. *)
Theorem render_of_fallbacks (attributes : gmap string Php.value) :
  Forall (λ k, attributes !! k = None) printed_keys →
  Php.render_tree attributes = Some {|
    Markup.container := {|
      Markup.padding :=
        esc_attr (php_number_to_string 2) +:+ "rem "
          +:+ esc_attr (php_number_to_string 2) +:+ "rem "
          +:+ esc_attr (php_number_to_string 2) +:+ "rem "
          +:+ esc_attr (php_number_to_string 2) +:+ "rem";
      Markup.backgroundColor := esc_attr "#ffffff";
      Markup.alignItems := esc_attr "center" |};
    Markup.children :=
      [{| Markup.tag := "h2";
          Markup.style := {|
            Markup.color := esc_attr "#1a202c";
            Markup.fontSize := esc_attr (php_number_to_string 3) +:+ "rem" |};
          Markup.body := esc_html "Block Title" |};
       {| Markup.tag := "p";
          Markup.style := {|
            Markup.color := esc_attr "#4a5568";
            Markup.fontSize := esc_attr (php_number_to_string 1) +:+ "rem" |};
          Markup.body := esc_html "Add your content here..." |}]
  |}.
Proof.
  unfold printed_keys. intros Habsent.
  repeat match goal with
         | Hall : Forall _ (_ :: _) |- _ =>
             apply Forall_cons_1 in Hall; destruct Hall as [? Hall]
         end.
  unfold Php.render_tree, Php.tree, Php.h2, Php.p, Php.locals. simpl.
  repeat match goal with
         | Heq : attributes !! _ = None |- _ => rewrite Heq; clear Heq
         end.
  reflexivity.
Qed.

End DefaultRender.

Lemma render_of_fallbacks_witness :
  Forall (λ k, ({[ "showTitle" := Php.VBool false ]} : gmap string Php.value) !! k = None)
    printed_keys
  ∧ Markup.padding ∘ Markup.container
      <$> @Php.render_tree reference_php {[ "showTitle" := Php.VBool false ]}
    = Some "2rem 2rem 2rem 2rem".
Proof.
  assert (Habsent :
    Forall (λ k, ({[ "showTitle" := Php.VBool false ]} : gmap string Php.value) !! k = None)
      printed_keys).
  { unfold printed_keys. repeat (apply Forall_cons_2; [reflexivity |]). apply Forall_nil_2. }
  split; [exact Habsent |].
  rewrite (@render_of_fallbacks reference_php _ Habsent). reflexivity.
Defined.

(** ** The editor between two renders *)

Section EditorUpdates.
Context `{JsRuntime}.

(** X6: the Show Title toggle sets [showTitle] and nothing else. The h2 is
    in the preview exactly when the toggle is on, the content is as it was,
    the title's text, colour and size are kept while it is hidden, and
    setting the toggle back gives the attributes back. *)
Theorem toggle_keeps_title (a : Editor.BlockAttributes) (b : bool) :
  ∃ a',
    update_through a 0 (InBool b) = Some a'
    ∧ Editor.showTitle a' = b
    ∧ Editor.title a' = Editor.title a
    ∧ Editor.titleTextColor a' = Editor.titleTextColor a
    ∧ Editor.titleFontSize a' = Editor.titleFontSize a
    ∧ Markup.has_tag "h2" (Editor.preview (Editor.Edit a')) = b
    ∧ Markup.find_tag "p" (Editor.preview (Editor.Edit a'))
      = Markup.find_tag "p" (Editor.preview (Editor.Edit a))
    ∧ Markup.container (Editor.preview (Editor.Edit a'))
      = Markup.container (Editor.preview (Editor.Edit a))
    ∧ update_through a' 0 (InBool (Editor.showTitle a)) = Some a.
Proof.
  eexists. split; [reflexivity |].
  destruct a as [t st tc ts c cc cs bg pad al].
  destruct st, b; simpl; repeat split; reflexivity.
Qed.

(** X7: a text edited in place is the text the next render shows in that
    element, in the element's style; the other element, the container and
    the settings panel are as they were. *)
Theorem edit_in_place_shows_text
    (a : Editor.BlockAttributes) (n : nat) (t : Editor.RichText) (v : string) :
  Editor.sectionChildren (Editor.Edit a) !! n = Some t →
  ∃ a',
    edit_in_place a n v = Some a'
    ∧ Markup.children (Editor.preview (Editor.Edit a'))
      = <[n := {| Markup.tag := Editor.tagName t; Markup.style := Editor.style t;
                  Markup.body := v |}]>
          (Markup.children (Editor.preview (Editor.Edit a)))
    ∧ Markup.container (Editor.preview (Editor.Edit a'))
      = Markup.container (Editor.preview (Editor.Edit a))
    ∧ panel (Editor.Edit a') = panel (Editor.Edit a).
Proof.
  intros Ht. unfold edit_in_place. rewrite Ht. simpl.
  revert Ht. destruct a as [ti st tc ts c cc cs bg pad al].
  unfold Editor.Edit. simpl.
  destruct st; simpl; intros Ht;
    repeat (destruct n as [|n]; simpl in Ht; [injection Ht as <- |]);
    try discriminate Ht; simpl; eexists; (split; [reflexivity |]);
    repeat split; reflexivity.
Qed.

(** X8: every control shows the value that is stored: handing a control the
    value it shows changes nothing. *)
Theorem shown_value_is_stored_value (a : Editor.BlockAttributes) :
  Forall (λ c, fire c (shown_input c) ≫= Editor.setAttributes a = Some a)
    (Editor.panelBody (Editor.Edit a))
  ∧ Forall (λ c, match c with
                 | Editor.colorSetting _ value onChange =>
                     Editor.setAttributes a (onChange (Some value)) = Some a
                 end)
      (Editor.colorSettings (Editor.Edit a)).
Proof.
  destruct a as [t st tc ts c cc cs bg [pt pb pl pr] al].
  unfold Editor.Edit. simpl.
  destruct st; split; repeat first [apply Forall_nil_2 | apply Forall_cons_2];
    reflexivity.
Qed.

(** X9: the callbacks of the padding controls carry the padding of the
    render they belong to. When two of them fire with no render in between,
    the last one alone takes effect: its side has its value and the other
    three sides are those of the render, the value of the first being
    lost. *)
Theorem padding_updates_of_one_render_last_wins
    (a : Editor.BlockAttributes) (s s' : Side) (v w : option number) :
  update_twice_from_one_render a (padding_index a s) (InNumber v)
    (padding_index a s') (InNumber w)
  = update_through a (padding_index a s') (InNumber w)
  ∧ ∃ a',
      update_through a (padding_index a s') (InNumber w) = Some a'
      ∧ side_of s' (Editor.padding a')
        = match w with
          | Some number => number
          | None => 0%Q
          end
      ∧ Forall (λ s'', side_of s'' (Editor.padding a') = side_of s'' (Editor.padding a))
          (other_sides s').
Proof.
  destruct a as [t st tc ts c cc cs bg [pt pb pl pr] al].
  unfold update_twice_from_one_render, update_through, padding_index, Editor.Edit.
  simpl.
  destruct st, s, s'; simpl; (split; [reflexivity |]); eexists;
    (split; [reflexivity |]); simpl; (split; [by destruct w |]);
    repeat constructor.
Qed.

(** X10: with a render in between, the updates of two different padding
    sides commute, and both values are stored. *)
Theorem padding_updates_commute
    (a : Editor.BlockAttributes) (s : Side) (v w : option number) :
  Forall (λ s',
            (update_through a (padding_index a s) (InNumber v)
               ≫= λ a', update_through a' (padding_index a' s') (InNumber w))
            = (update_through a (padding_index a s') (InNumber w)
                 ≫= λ a', update_through a' (padding_index a' s) (InNumber v))
            ∧ ∃ a'',
                (update_through a (padding_index a s) (InNumber v)
                   ≫= λ a', update_through a' (padding_index a' s') (InNumber w))
                = Some a''
                ∧ side_of s (Editor.padding a'')
                  = match v with
                    | Some number => number
                    | None => 0%Q
                    end
                ∧ side_of s' (Editor.padding a'')
                  = match w with
                    | Some number => number
                    | None => 0%Q
                    end)
    (other_sides s).
Proof.
  destruct a as [t st tc ts c cc cs bg [pt pb pl pr] al].
  unfold update_through, padding_index, Editor.Edit. simpl.
  destruct st, s; simpl;
    repeat first [apply Forall_nil_2 | apply Forall_cons_2];
    (split; [reflexivity |]); eexists; (split; [reflexivity |]);
    (split; [by destruct v | by destruct w]).
Qed.

(** X11: a content colour set through the colour setting is the colour of
    the content in the next preview and the value both controls of the
    field show, the select as well, whether or not the colour is one of
    its three options; choosing the same colour in the select stores the
    same attributes. *)
Theorem content_colour_shown_everywhere (a : Editor.BlockAttributes) (v : string) :
  ∃ a',
    update_through_colour a 2 (Some v) = Some a'
    ∧ update_through a (if Editor.showTitle a then 3 else 2) (InString v) = Some a'
    ∧ map d_shown (controls_of "contentTextColor" (Editor.Edit a'))
      = [Chosen v ["#000000"; "#ffffff"; "#808080"]; Colour v]
    ∧ Markup.color ∘ Markup.style
        <$> Markup.find_tag "p" (Editor.preview (Editor.Edit a'))
      = Some v.
Proof.
  eexists. split; [reflexivity |].
  destruct a as [t st tc ts c cc cs bg pad al].
  destruct st; simpl; repeat split; reflexivity.
Qed.

(** X12: a padding control that is handed no number stores 0 on its side,
    and attributes whose numbers are in range stay in range. *)
Theorem cleared_padding_side_is_zero (a : Editor.BlockAttributes) (s : Side) :
  Spec.numbers_in_range a = true →
  ∃ a',
    update_through a (padding_index a s) (InNumber None) = Some a'
    ∧ side_of s (Editor.padding a') = 0%Q
    ∧ Spec.numbers_in_range a' = true.
Proof.
  rewrite numbers_in_range_true. intros (Ht & Hc & Hpt & Hpb & Hpl & Hpr).
  destruct a as [t st tc ts c cc cs bg [pt pb pl pr] al]. simpl in *.
  unfold update_through, padding_index, Editor.Edit. simpl.
  destruct st, s; simpl; eexists; (split; [reflexivity |]);
    (split; [reflexivity |]); rewrite numbers_in_range_true; simpl;
    repeat split; auto.
Qed.

End EditorUpdates.

Lemma edit_in_place_shows_text_witness :
  Editor.sectionChildren (@Editor.Edit reference_js sample) !! 1
  = Some {| Editor.tagName := "p";
            Editor.className := "test-block__content";
            Editor.value := "World";
            Editor.onChange := λ value, Editor.obj_content (Some value);
            Editor.style := {| Markup.color := "#000000"; Markup.fontSize := "1rem" |} |}
  ∧ ∃ a',
      @edit_in_place reference_js sample 1 "Hello" = Some a'
      ∧ map Markup.body (Markup.children (Editor.preview (@Editor.Edit reference_js a')))
        = ["Hi"; "Hello"].
Proof.
  split; [reflexivity |].
  destruct (@edit_in_place_shows_text reference_js sample 1
              {| Editor.tagName := "p";
                 Editor.className := "test-block__content";
                 Editor.value := "World";
                 Editor.onChange := λ value, Editor.obj_content (Some value);
                 Editor.style := {| Markup.color := "#000000"; Markup.fontSize := "1rem" |} |}
              "Hello") as (a' & Hedit & Hchildren & _); [reflexivity |].
  exists a'. split; [exact Hedit |]. rewrite Hchildren. reflexivity.
Defined.

Lemma cleared_padding_side_is_zero_witness :
  Spec.numbers_in_range sample = true
  ∧ ∃ a',
      @update_through reference_js sample (padding_index sample Left) (InNumber None)
      = Some a'
      ∧ side_of Left (Editor.padding a') = 0%Q
      ∧ Spec.numbers_in_range a' = true.
Proof.
  split; [reflexivity |].
  apply (@cleared_padding_side_is_zero reference_js sample Left). reflexivity.
Defined.

(** ** Where the two renderings agree *)

Section Agreement.
Context `{PhpRuntime} `{JsRuntime}.

(** X13: for an attribute set whose six numbers PHP and JavaScript print
    alike and whose texts the escaping functions leave as they are, the
    tree render.php prints is the preview of the editor for the same
    attributes with the title shown and the content in #4a5568: containers,
    title and content agree in every style and text but for these two. *)
Theorem static_render_is_preview_as_printed (a : Editor.BlockAttributes) :
  Forall (λ q, php_number_to_string q = js_number_to_string q) (printed_numbers a) →
  Forall (λ s, esc_attr s = s) (style_texts a) →
  Forall (λ s, esc_html s = s) (body_texts a) →
  Php.render_tree (to_attributes a)
  = Some (Editor.preview (Editor.Edit (as_printed a))).
Proof.
  intros Hnum Hattr Hhtml.
  unfold printed_numbers in Hnum. unfold style_texts in Hattr.
  unfold body_texts in Hhtml.
  repeat match goal with
         | Hall : Forall _ (_ :: _) |- _ =>
             apply Forall_cons_1 in Hall; destruct Hall as [? Hall]
         end.
  rewrite render_tree_to_attributes, preview_Edit.
  unfold Spec.container_style, Spec.title_style, Spec.content_style, as_printed.
  simpl.
  repeat match goal with
         | Heq : php_number_to_string _ = _ |- _ => rewrite Heq; clear Heq
         end.
  repeat match goal with
         | Heq : esc_attr _ = _ |- _ => rewrite Heq; clear Heq
         | Heq : esc_html _ = _ |- _ => rewrite Heq; clear Heq
         end.
  reflexivity.
Qed.

End Agreement.

Lemma static_render_is_preview_as_printed_witness :
  Forall (λ q, @php_number_to_string reference_php q = @js_number_to_string reference_js q)
    (printed_numbers sample)
  ∧ Forall (λ s, @esc_attr reference_php s = s) (@style_texts reference_js sample)
  ∧ Forall (λ s, @esc_html reference_php s = s) (body_texts sample)
  ∧ @Php.render_tree reference_php (to_attributes sample)
    = Some (Editor.preview (@Editor.Edit reference_js (as_printed sample))).
Proof.
  assert (Hnum : Forall (λ q, @php_number_to_string reference_php q
                              = @js_number_to_string reference_js q)
                   (printed_numbers sample)).
  { unfold printed_numbers. repeat (apply Forall_cons_2; [reflexivity |]). apply Forall_nil_2. }
  assert (Hattr : Forall (λ s, @esc_attr reference_php s = s)
                    (@style_texts reference_js sample)).
  { unfold style_texts. repeat (apply Forall_cons_2; [reflexivity |]). apply Forall_nil_2. }
  assert (Hhtml : Forall (λ s, @esc_html reference_php s = s) (body_texts sample)).
  { unfold body_texts. repeat (apply Forall_cons_2; [reflexivity |]). apply Forall_nil_2. }
  split; [exact Hnum |]. split; [exact Hattr |]. split; [exact Hhtml |].
  exact (@static_render_is_preview_as_printed reference_php reference_js sample
           Hnum Hattr Hhtml).
Defined.

(** ** Callbacks handed undefined *)

Section UndefinedValues.
Context `{JsRuntime}.

(** X14: the range controls of the two font sizes and the three colour
    settings pass the value they are handed to [setAttributes] as it is.
    Handed undefined, they write their key as undefined, and the attributes
    are no longer a [BlockAttributes]; the range controls of the padding,
    which write [value ?? 0], give attributes. *)
Theorem unguarded_callbacks_write_undefined (a : Editor.BlockAttributes) :
  Forall (λ c, match c with
               | Editor.RangeControl _ _ onChange _ _ =>
                   keys (onChange None) ≠ ["padding"]
                   ∧ Editor.setAttributes a (onChange None) = None
                   ∨ keys (onChange None) = ["padding"]
                     ∧ is_Some (Editor.setAttributes a (onChange None))
               | _ => True
               end)
    (Editor.panelBody (Editor.Edit a))
  ∧ Forall (λ c, match c with
                 | Editor.colorSetting _ _ onChange =>
                     Editor.setAttributes a (onChange None) = None
                 end)
      (Editor.colorSettings (Editor.Edit a))
  ∧ update_through a (if Editor.showTitle a then 2 else 1) (InNumber None) = None.
Proof.
  destruct a as [t st tc ts c cc cs bg [pt pb pl pr] al].
  unfold update_through, Editor.Edit. simpl.
  destruct st; simpl; (split; [| split; [| reflexivity]]);
    repeat first [apply Forall_nil_2 | apply Forall_cons_2]; simpl;
    first [done | by left | by right; split; [| eexists]].
Qed.

End UndefinedValues.
